(** * gobincache: is an installed Go binary stale relative to go.mod?

    A shallow embedding of the three revisions of the program's single
    source file and the proofs of the properties stated about them.

    - [Part000] : src/unnamed/part_000 -- toolchain check, first matching
      requirement, an unknown module path asks for an install;
    - [Main]    : src/main.go -- no toolchain check, first matching
      requirement, an unknown module path is an error;
    - [Part001] : src/unnamed/part_001 -- no toolchain check, inline loop
      keeping the last matching requirement, an unknown module path is an
      error.

    Everything the program obtains from outside its own source (the file
    system, [modfile.Parse], [buildinfo.ReadFile], the [semver] package) is
    gathered in the record [Env]; the program's functions take it as their
    first argument. *)

From Stdlib Require Import String Ascii List ZArith Bool Arith Lia.
Import ListNotations.
Open Scope string_scope.

Set Implicit Arguments.

(* ================================================================= *)
(** ** Outcomes of a Go function call *)

(** A call either returns its results or panics (a nil pointer is
    dereferenced).  Go's [(bool, error)] result pair is [bool * option error]
    with [None] for a nil error. *)
Inductive Outcome (A : Type) : Type :=
| Returns (a : A)
| Panics.
Arguments Panics {A}.

Definition bind {A B : Type} (m : Outcome A) (k : A -> Outcome B) : Outcome B :=
  match m with
  | Returns a => k a
  | Panics => Panics
  end.

Notation "x <- m ;; k" := (bind m (fun x => k))
  (at level 61, m at next level, right associativity).

(** [*p] for a pointer that may be nil. *)
Definition deref {A : Type} (p : option A) : Outcome A :=
  match p with
  | Some a => Returns a
  | None => Panics
  end.

(* ================================================================= *)
(** ** Go's standard library: strings, errors, fmt *)

Fixpoint drop (n : nat) (s : string) : string :=
  match n, s with
  | O, _ => s
  | S n', String _ s' => drop n' s'
  | S _, EmptyString => EmptyString
  end.

(** [strings.HasPrefix(s, prefix)] *)
Definition HasPrefix (s prefix : string) : bool := String.prefix prefix s.

(** [strings.TrimPrefix(s, prefix)]: [s[len(prefix):]] when [s] starts with
    [prefix], otherwise [s] unchanged. *)
Definition TrimPrefix (s prefix : string) : string :=
  if HasPrefix s prefix then drop (String.length prefix) s else s.

(** Error values.  A leaf records whether [errors.Is(_, os.ErrNotExist)]
    holds of it (as it does of [syscall.ENOENT]) and its message; the other
    constructor is any error with an [Unwrap] method: what [fmt.Errorf]
    builds for [%w], and the [*fs.PathError] of a failed open. *)
Inductive error : Type :=
| leafError (isNotExist : bool) (msg : string)
| wrapError (msg : string) (err : error).

(** The [Error()] method. *)
Definition Error (e : error) : string :=
  match e with
  | leafError _ msg => msg
  | wrapError msg _ => msg
  end.

(** [errors.Is(err, os.ErrNotExist)]: follows the [Unwrap] chain. *)
Fixpoint Is_ErrNotExist (err : error) : bool :=
  match err with
  | leafError b _ => b
  | wrapError _ err' => Is_ErrNotExist err'
  end.

(** [fmt.Errorf(format)] with no [%w] verb, the message already formatted. *)
Definition Errorf (msg : string) : error := leafError false msg.

(** [fmt.Errorf(prefix + "%w", err)] *)
Definition Errorf_w (prefix : string) (err : error) : error :=
  wrapError (prefix ++ Error err) err.

(* ================================================================= *)
(** ** Types of the packages the program imports *)

(** golang.org/x/mod/module *)
Module module.
Module Version.
Record t : Type := mk { Path : string; Version : string }.
End Version.
End module.

(** golang.org/x/mod/modfile.  Pointers the parser always allocates (the
    elements of [Require], [Exclude], [Replace]) are plain values; [File.Go]
    is nil when the file has no go directive, hence an [option]. *)
Module modfile.
Module Go.
Record t : Type := mk { Version : string }.
End Go.
Module Require.
Record t : Type := mk { Mod : module.Version.t; Indirect : bool }.
End Require.
Module Exclude.
Record t : Type := mk { Mod : module.Version.t }.
End Exclude.
Module Replace.
Record t : Type := mk { Old : module.Version.t; New : module.Version.t }.
End Replace.
Module File.
Record t : Type := mk {
      Go : option Go.t;
      Require : list Require.t;
      Exclude : list Exclude.t;
      Replace : list Replace.t
    }.
End File.
End modfile.

(** runtime/debug ([Module_] is Go's [debug.Module]).  Here as in the
    other packages, only a few of the fields the program never reads are
    kept. *)
Module debug.
Module Module_.
Record t : Type := mk { Path : string; Version : string; Sum : string }.
End Module_.
Module BuildInfo.
Record t : Type := mk {
      GoVersion : string;
      Path : string;
      Main : Module_.t
    }.
End BuildInfo.
End debug.

(* ================================================================= *)
(** ** The environment of one invocation *)

(** What the program calls but does not define: the file system behind
    [os.ReadFile] and [buildinfo.ReadFile], and the packages [modfile] and
    [semver].  A library call returning [(T, error)] yields [inl] of its
    value or [inr] of its non-nil error. *)
Record Env : Type := mkEnv {
  os_ReadFile : string -> string + error;
  modfile_Parse : string -> modfile.File.t + error;
  buildinfo_ReadFile : string -> debug.BuildInfo.t + error;
  semver_IsValid : string -> bool;
  semver_Compare : string -> string -> Z
}.

(* ================================================================= *)
(** ** The program *)

(** [versionFromGoMod], the same text in main.go (118-126) and part_000
    (140-148): the [Mod] of the first requirement whose path is the
    binary's, nil when the loop ends without one. *)
Fixpoint versionFromGoMod_loop (reqs : list modfile.Require.t)
    (binaryModule : debug.Module_.t) : option module.Version.t :=
  match reqs with
  | [] => None
  | required :: rest =>
      if module.Version.Path (modfile.Require.Mod required)
           =? debug.Module_.Path binaryModule
      then Some (modfile.Require.Mod required)
      else versionFromGoMod_loop rest binaryModule
  end.

Definition versionFromGoMod (gomod : modfile.File.t)
    (binaryModule : debug.Module_.t) : option module.Version.t :=
  versionFromGoMod_loop (modfile.File.Require gomod) binaryModule.

(** A requirement is a match for the binary when the paths are the same
    string. *)
Definition matches (bin : debug.Module_.t) (r : modfile.Require.t) : Prop :=
  module.Version.Path (modfile.Require.Mod r) = debug.Module_.Path bin.

(** The two version strings [needsUpdateForGo] compares, named after its
    local variables. *)
Definition modGoVersion (goVersion : string) : string := "v" ++ goVersion.

Definition binGoVersion (goVersion : string) : string :=
  "v" ++ TrimPrefix goVersion "go".

(** *** src/unnamed/part_000 *)
Module Part000.

Definition needsUpdateForGo (E : Env) (gomod : modfile.File.t)
      (info : debug.BuildInfo.t) : Outcome (bool * option error) :=
    go <- deref (modfile.File.Go gomod) ;;
    let modGoVersion := modGoVersion (modfile.Go.Version go) in
    let binGoVersion := binGoVersion (debug.BuildInfo.GoVersion info) in
    if negb (semver_IsValid E modGoVersion) then
      Returns (false,
        Some (Errorf ("parsing go.mod go version (" ++ modGoVersion ++ ")")))
    else if negb (semver_IsValid E binGoVersion) then
      Returns (false,
        Some (Errorf ("parsing binary go version (" ++ binGoVersion ++ ")")))
    else if (semver_Compare E binGoVersion modGoVersion =? -1)%Z then
      Returns (true, None)
    else
      Returns (false, None).

Definition requiresInstall (E : Env) (binPath : string)
      : Outcome (bool * option error) :=
    match os_ReadFile E "go.mod" with
    | inr err => Returns (false, Some (Errorf_w "reading modfile: " err))
    | inl b =>
    match modfile_Parse E b with
    | inr err => Returns (false, Some (Errorf_w "parsing modfile: " err))
    | inl gomod =>
    match buildinfo_ReadFile E binPath with
    | inr err =>
        if Is_ErrNotExist err then Returns (true, None)
        else Returns (false, Some (Errorf_w
               ("reading binary buildinfo (" ++ binPath ++ "): ") err))
    | inl info =>
        r <- needsUpdateForGo E gomod info ;;
        match r with
        | (_, Some err) => Returns (false, Some err)
        | (true, None) => Returns (true, None)
        | (false, None) =>
            let bin := debug.BuildInfo.Main info in
            match versionFromGoMod gomod bin with
            | None => Returns (true, None)
            | Some modv =>
                Returns (negb (debug.Module_.Version bin
                                 =? module.Version.Version modv), None)
            end
        end
    end end end.

End Part000.

(** *** src/main.go *)
Module Main.

Definition moduleFromBinary (E : Env) (path : string)
      : debug.Module_.t + error :=
    match buildinfo_ReadFile E path with
    | inr err => inr err
    | inl info => inl (debug.BuildInfo.Main info)
    end.

Definition requiresInstall (E : Env) (binPath : string)
      : Outcome (bool * option error) :=
    match os_ReadFile E "go.mod" with
    | inr err => Returns (false, Some (Errorf_w "reading modfile: " err))
    | inl b =>
    match modfile_Parse E b with
    | inr err => Returns (false, Some (Errorf_w "parsing modfile: " err))
    | inl gomod =>
    match moduleFromBinary E binPath with
    | inr err =>
        if Is_ErrNotExist err then Returns (true, None)
        else Returns (false, Some (Errorf_w
               ("reading binary buildinfo (" ++ binPath ++ "): ") err))
    | inl bin =>
        match versionFromGoMod gomod bin with
        | None =>
            Returns (false, Some (Errorf
              ("module (" ++ debug.Module_.Path bin
                 ++ ") not found in modfile")))
        | Some modv =>
            Returns (negb (debug.Module_.Version bin
                             =? module.Version.Version modv), None)
        end
    end end end.

End Main.

(** *** src/unnamed/part_001 *)
Module Part001.

(** The loop of lines 103-110: [modv] (the source's [mod]) starts nil and
    is overwritten at every requirement whose path is the binary's.  [r] is
    a [*modfile.Require], so [&r.Mod] points into the requirement itself. *)
Fixpoint requiresInstall_loop (reqs : list modfile.Require.t)
      (bin : debug.Module_.t) (modv : option module.Version.t)
      : option module.Version.t :=
    match reqs with
    | [] => modv
    | r :: rest =>
        if negb (module.Version.Path (modfile.Require.Mod r)
                   =? debug.Module_.Path bin)
        then requiresInstall_loop rest bin modv
        else requiresInstall_loop rest bin (Some (modfile.Require.Mod r))
    end.

Definition requiresInstall (E : Env) (binPath : string)
      : Outcome (bool * option error) :=
    match os_ReadFile E "go.mod" with
    | inr err => Returns (false, Some (Errorf_w "reading modfile: " err))
    | inl b =>
    match modfile_Parse E b with
    | inr err => Returns (false, Some (Errorf_w "parsing modfile: " err))
    | inl gomod =>
    match buildinfo_ReadFile E binPath with
    | inr err =>
        if Is_ErrNotExist err then Returns (true, None)
        else Returns (false, Some (Errorf_w
               ("reading binary buildinfo (" ++ binPath ++ "): ") err))
    | inl info =>
        let bin := debug.BuildInfo.Main info in
        match requiresInstall_loop (modfile.File.Require gomod) bin None with
        | None =>
            Returns (false, Some (Errorf
              ("module (" ++ debug.Module_.Path bin
                 ++ ") not found in modfile.")))
        | Some modv =>
            Returns (negb (debug.Module_.Version bin
                             =? module.Version.Version modv), None)
        end
    end end end.

End Part001.

(* ================================================================= *)
(** ** The package golang.org/x/mod/semver *)

(** Modelled from the spec: the package semver is a dependency whose source
    is not part of this repository; the spec only says that both toolchain
    strings are brought into "comparable semantic-version form" and compared.
    The definitions below follow the package's [IsValid] and [Compare]
    (a leading v, MAJOR[.MINOR[.PATCH[-PRERELEASE][+BUILD]]], numbers without
    leading zeros) and are used to run the program on concrete inputs; the
    general theorems hold for every [Env]. *)
Module semver.

Record parsed : Type := mkParsed {
  major : string; minor : string; patch : string;
  short : string; prerelease : string; build : string
}.

Definition isDigit (c : ascii) : bool :=
  (48 <=? nat_of_ascii c)%nat && (nat_of_ascii c <=? 57)%nat.

Definition isIdentChar (c : ascii) : bool :=
  let n := nat_of_ascii c in
  ((65 <=? n) && (n <=? 90) || (97 <=? n) && (n <=? 122)
   || (48 <=? n) && (n <=? 57) || (n =? 45))%nat.

(** The longest prefix of digits and what follows it. *)
Fixpoint digits (v : string) : string * string :=
  match v with
  | String c r =>
      if isDigit c then let (t, rest) := digits r in (String c t, rest)
      else (EmptyString, v)
  | EmptyString => (EmptyString, EmptyString)
  end.

Definition parseInt (v : string) : option (string * string) :=
  match v with
  | EmptyString => None
  | String c _ =>
      if negb (isDigit c) then None
      else
        let (t, rest) := digits v in
        if (c =? "0")%char && negb (String.length t =? 1)%nat then None
        else Some (t, rest)
  end.

Definition isBadNum (v : string) : bool :=
  let (t, rest) := digits v in
  (rest =? "") && (1 <? String.length v)%nat
  && match v with String c _ => (c =? "0")%char | EmptyString => false end.

Definition isNum (v : string) : bool :=
  let (t, rest) := digits v in rest =? "".

(** The scanning loop of [parsePrerelease]: [v] is what is left from index
    [i], [cur] is [v[start:i]] and [acc] is [v[:i]]. *)
Fixpoint parsePrerelease_loop (v cur acc : string) : option (string * string) :=
  match v with
  | EmptyString =>
      if (cur =? "") || isBadNum cur then None else Some (acc, v)
  | String c r =>
      if (c =? "+")%char then
        if (cur =? "") || isBadNum cur then None else Some (acc, v)
      else if negb (isIdentChar c) && negb (c =? ".")%char then None
      else if (c =? ".")%char then
        if (cur =? "") || isBadNum cur then None
        else parsePrerelease_loop r "" (acc ++ String c "")
      else parsePrerelease_loop r (cur ++ String c "") (acc ++ String c "")
  end.

Definition parsePrerelease (v : string) : option (string * string) :=
  match v with
  | String "-" r => parsePrerelease_loop r "" "-"
  | _ => None
  end.

Fixpoint parseBuild_loop (v cur acc : string) : option (string * string) :=
  match v with
  | EmptyString => if cur =? "" then None else Some (acc, v)
  | String c r =>
      if negb (isIdentChar c) && negb (c =? ".")%char then None
      else if (c =? ".")%char then
        if cur =? "" then None
        else parseBuild_loop r "" (acc ++ String c "")
      else parseBuild_loop r (cur ++ String c "") (acc ++ String c "")
  end.

Definition parseBuild (v : string) : option (string * string) :=
  match v with
  | String "+" r => parseBuild_loop r "" "+"
  | _ => None
  end.

(** After PATCH: an optional prerelease, an optional build, then the end. *)
Definition parse_tail (ma mi pa v : string) : option parsed :=
  match (match v with
         | String "-" _ => parsePrerelease v
         | _ => Some ("", v)
         end) with
  | None => None
  | Some (pre, v1) =>
      match (match v1 with
             | String "+" _ => parseBuild v1
             | _ => Some ("", v1)
             end) with
      | None => None
      | Some (bu, v2) =>
          if v2 =? "" then Some (mkParsed ma mi pa "" pre bu) else None
      end
  end.

Definition parse (v : string) : option parsed :=
  match v with
  | String "v" v0 =>
    match parseInt v0 with
    | None => None
    | Some (ma, v1) =>
      match v1 with
      | EmptyString => Some (mkParsed ma "0" "0" ".0.0" "" "")
      | String "." v1' =>
        match parseInt v1' with
        | None => None
        | Some (mi, v2) =>
          match v2 with
          | EmptyString => Some (mkParsed ma mi "0" ".0" "" "")
          | String "." v2' =>
            match parseInt v2' with
            | None => None
            | Some (pa, v3) => parse_tail ma mi pa v3
            end
          | _ => None
          end
        end
      | _ => None
      end
    end
  | _ => None
  end.

Definition IsValid (v : string) : bool :=
  match parse v with Some _ => true | None => false end.

(** Go's [x < y] on strings: bytewise lexicographic order. *)
Definition ltb (x y : string) : bool :=
  match String.compare x y with Lt => true | _ => false end.

Definition compareInt (x y : string) : Z :=
  if x =? y then 0%Z
  else if (String.length x <? String.length y)%nat then (-1)%Z
  else if (String.length y <? String.length x)%nat then 1%Z
  else if ltb x y then (-1)%Z else 1%Z.

(** [nextIdent]: up to the next dot, and the rest from that dot on. *)
Fixpoint nextIdent (x : string) : string * string :=
  match x with
  | EmptyString => ("", "")
  | String c r =>
      if (c =? ".")%char then ("", x)
      else let (dx, rest) := nextIdent r in (String c dx, rest)
  end.

(** The loop of [comparePrerelease]; every round removes at least the
    leading separator of [x], so [String.length x] rounds are enough. *)
Fixpoint comparePrerelease_loop (rounds : nat) (x y : string) : Z :=
  match x, y with
  | EmptyString, _ => (-1)%Z
  | _, EmptyString => 1%Z
  | String _ x1, String _ y1 =>
      match rounds with
      | O => 0%Z
      | S rounds' =>
          let (dx, x2) := nextIdent x1 in
          let (dy, y2) := nextIdent y1 in
          if negb (dx =? dy) then
            let ix := isNum dx in
            let iy := isNum dy in
            if negb (Bool.eqb ix iy) then (if ix then (-1)%Z else 1%Z)
            else if ix && (String.length dx <? String.length dy)%nat
                 then (-1)%Z
            else if ix && (String.length dy <? String.length dx)%nat
                 then 1%Z
            else if ltb dx dy then (-1)%Z else 1%Z
          else comparePrerelease_loop rounds' x2 y2
      end
  end.

Definition comparePrerelease (x y : string) : Z :=
  if x =? y then 0%Z
  else if x =? "" then 1%Z
  else if y =? "" then (-1)%Z
  else comparePrerelease_loop (String.length x) x y.

Definition Compare (v w : string) : Z :=
  match parse v, parse w with
  | None, None => 0%Z
  | None, Some _ => (-1)%Z
  | Some _, None => 1%Z
  | Some pv, Some pw =>
      let c := compareInt (major pv) (major pw) in
      if negb (c =? 0)%Z then c else
      let c := compareInt (minor pv) (minor pw) in
      if negb (c =? 0)%Z then c else
      let c := compareInt (patch pv) (patch pw) in
      if negb (c =? 0)%Z then c else
      comparePrerelease (prerelease pv) (prerelease pw)
  end.

End semver.

(* ================================================================= *)
(** ** Concrete invocations *)

(** The error of opening a path that does not exist: a [*fs.PathError]
    around [syscall.ENOENT]. *)
Definition ENOENT (path : string) : error :=
  wrapError ("open " ++ path ++ ": no such file or directory")
            (leafError true "no such file or directory").

(** An invocation in a directory whose go.mod reads as [gomod] (or fails to),
    on which the parser answers [parsed], with [bin] behind [binPath] and no
    other file; the semver package is the one above. *)
Definition invocation (gomod : string + error) (parsed : modfile.File.t + error)
    (binPath : string) (bin : debug.BuildInfo.t + error) : Env :=
  mkEnv
    (fun name => if name =? "go.mod" then gomod else inr (ENOENT name))
    (fun data =>
       match gomod with
       | inl b => if data =? b then parsed
                  else inr (Errorf "not the manifest of this invocation")
       | inr _ => inr (Errorf "not the manifest of this invocation")
       end)
    (fun path => if path =? binPath then bin else inr (ENOENT path))
    semver.IsValid semver.Compare.

Definition require (path version : string) : modfile.Require.t :=
  modfile.Require.mk (module.Version.mk path version) false.

(** A binary built by toolchain [goVersion] from module [path] at
    [version]. *)
Definition built (goVersion path version : string) : debug.BuildInfo.t :=
  debug.BuildInfo.mk goVersion path (debug.Module_.mk path version "").

(** The manifest of the spec's scenarios: toolchain 1.21 and
    example.com/tool at v1.2.0. *)
Definition manifest : string :=
"module example.com/project

go 1.21

require example.com/tool v1.2.0
".

Definition manifest_file : modfile.File.t :=
  modfile.File.mk (Some (modfile.Go.mk "1.21"))
    [require "example.com/tool" "v1.2.0"] [] [].

(** The same module required twice, at two versions. *)
Definition manifest_twice : string :=
"module example.com/project

go 1.21

require example.com/tool v1.2.0

require example.com/tool v1.3.0
".

Definition manifest_twice_file : modfile.File.t :=
  modfile.File.mk (Some (modfile.Go.mk "1.21"))
    [require "example.com/tool" "v1.2.0";
     require "example.com/tool" "v1.3.0"] [] [].

(** No go directive: the parser accepts the file and leaves [Go] nil. *)
Definition manifest_nogo : string :=
"module example.com/project

require example.com/tool v1.2.0
".

Definition manifest_nogo_file : modfile.File.t :=
  modfile.File.mk None [require "example.com/tool" "v1.2.0"] [] [].

(** A release candidate as toolchain version: a go directive that the parser
    accepts since the 1.21 toolchain, but v1.21rc1 is not a semantic
    version. *)
Definition manifest_rc : string :=
"module example.com/project

go 1.21rc1

require example.com/tool v1.2.0
".

Definition manifest_rc_file : modfile.File.t :=
  modfile.File.mk (Some (modfile.Go.mk "1.21rc1"))
    [require "example.com/tool" "v1.2.0"] [] [].

(** The tool's path occurs in a replace directive only. *)
Definition manifest_replace : string :=
"module example.com/project

go 1.21

replace example.com/tool => example.com/fork v1.2.0
".

Definition manifest_replace_file : modfile.File.t :=
  modfile.File.mk (Some (modfile.Go.mk "1.21")) [] []
    [modfile.Replace.mk (module.Version.mk "example.com/tool" "")
                        (module.Version.mk "example.com/fork" "v1.2.0")].

(** A misspelt directive, which the parser rejects. *)
Definition manifest_broken : string :=
"modul example.com/project
".

Definition manifest_broken_error : error :=
  Errorf ":1: unknown directive: modul".

Definition tool : debug.BuildInfo.t :=
  built "go1.22" "example.com/tool" "v1.2.0".

(** The tool installed and up to date. *)
Definition installed : Env :=
  invocation (inl manifest) (inl manifest_file) "bin/tool" (inl tool).

(** The tool never installed. *)
Definition not_installed : Env :=
  invocation (inl manifest) (inl manifest_file) "bin/tool"
             (inr (ENOENT "bin/tool")).

(** The tool as built by a toolchain older than the manifest's. *)
Definition installed_old : Env :=
  invocation (inl manifest) (inl manifest_file) "bin/tool"
    (inl (built "go1.20" "example.com/tool" "v1.2.0")).

(** The tool's module was renamed after the binary was built. *)
Definition renamed : Env :=
  invocation (inl manifest) (inl manifest_file) "bin/tool"
    (inl (built "go1.22" "example.com/renamed-tool" "v1.2.0")).

(** The tool at v1.2.0 under the manifest that requires it twice. *)
Definition installed_twice : Env :=
  invocation (inl manifest_twice) (inl manifest_twice_file) "bin/tool"
             (inl tool).

(** The tool under the manifest with a release-candidate toolchain. *)
Definition installed_rc : Env :=
  invocation (inl manifest_rc) (inl manifest_rc_file) "bin/tool" (inl tool).

(** The tool as built by a release candidate of the toolchain. *)
Definition installed_by_rc : Env :=
  invocation (inl manifest) (inl manifest_file) "bin/tool"
    (inl (built "go1.22rc1" "example.com/tool" "v1.2.0")).

Definition not_installed_rc : Env :=
  invocation (inl manifest_rc) (inl manifest_rc_file) "bin/tool"
             (inr (ENOENT "bin/tool")).

(** The manifest without a go directive, with and without the tool. *)
Definition installed_nogo : Env :=
  invocation (inl manifest_nogo) (inl manifest_nogo_file) "bin/tool"
             (inl tool).

Definition not_installed_nogo : Env :=
  invocation (inl manifest_nogo) (inl manifest_nogo_file) "bin/tool"
             (inr (ENOENT "bin/tool")).

(** The tool's path is replaced but not required. *)
Definition installed_replace : Env :=
  invocation (inl manifest_replace) (inl manifest_replace_file) "bin/tool"
             (inl tool).

(** A manifest that does not parse, and no binary. *)
Definition broken : Env :=
  invocation (inl manifest_broken) (inr manifest_broken_error) "bin/tool"
             (inr (ENOENT "bin/tool")).

(** Neither a manifest nor a binary. *)
Definition empty_directory : Env :=
  invocation (inr (ENOENT "go.mod")) (inr manifest_broken_error) "bin/tool"
             (inr (ENOENT "bin/tool")).

(* ================================================================= *)
(** ** The command around [requiresInstall] *)

(** The errors that reach [main]: the program's own [*exitCodeError]
    (lines 28-40 of main.go; [code] and [err] are its fields), or one of the
    errors above.  Those are built by [fmt.Errorf] and by the libraries, and
    none of them is or wraps an [*exitCodeError]. *)
Inductive command_error : Type :=
| exitCodeError (code : Z) (err : error)
| otherError (err : error).

(** The methods [Error] and [Unwrap] of [*exitCodeError], and [Error] of the
    rest. *)
Definition exitCodeError_Error (code : Z) (err : error) : string := Error err.

Definition exitCodeError_Unwrap (code : Z) (err : error) : error := err.

Definition command_Error (e : command_error) : string :=
  match e with
  | exitCodeError code err => exitCodeError_Error code err
  | otherError err => Error err
  end.

(** [errors.As(err, &exitCode)]: the exit code error found in the chain of
    [err], if there is one. *)
Definition As_exitCodeError (e : command_error) : option (Z * error) :=
  match e with
  | exitCodeError code err => Some (code, err)
  | otherError _ => None
  end.

(** The [RunE] closure of [cmd] (main.go 65-75, the same text in part_000;
    part_001 passes the command's context as well), over the revision's
    [requiresInstall].  [args[0]] panics on an empty slice. *)
Definition RunE (requiresInstall : string -> Outcome (bool * option error))
    (args : list string) : Outcome (option command_error) :=
  match args with
  | [] => Panics
  | arg0 :: _ =>
      r <- requiresInstall arg0 ;;
      match r with
      | (_, Some err) => Returns (Some (otherError err))
      | (true, None) =>
          Returns (Some (exitCodeError 2 (Errorf "binary requires install")))
      | (false, None) => Returns None
      end
  end.

(** How the process ends: what [main] wrote to standard error and the exit
    status. *)
Record Exit : Type := mkExit { Stderr : string; Code : Z }.

Definition newline : string := String "010" "".

(** [main] (main.go 15-26), as a function of what [cmd().Execute()] did:
    falling off the end of [main] is exit status 0. *)
Definition main (executed : Outcome (option command_error)) : Outcome Exit :=
  err <- executed ;;
  match err with
  | None => Returns (mkExit "" 0)
  | Some e =>
      match As_exitCodeError e with
      | Some (code, _) => Returns (mkExit "" code)
      | None =>
          Returns (mkExit ("error: " ++ command_Error e ++ newline) 1)
      end
  end.

(** A directory with the manifest, the tool at bin/tool and a file that is
    no Go binary at bin/notes. *)
Definition not_a_binary : error :=
  Errorf "could not read Go build info from bin/notes: unrecognized format".

Definition installed_beside_notes : Env :=
  mkEnv
    (fun name => if name =? "go.mod" then inl manifest
                 else inr (ENOENT name))
    (fun data => if data =? manifest then inl manifest_file
                 else inr (Errorf "not the manifest of this invocation"))
    (fun path => if path =? "bin/tool" then inl tool
                 else if path =? "bin/notes" then inr not_a_binary
                 else inr (ENOENT path))
    semver.IsValid semver.Compare.

(* ================================================================= *)
(** ** Properties of the helpers *)

Lemma drop_app (p s : string) : drop (String.length p) (p ++ s) = s.
Proof. induction p as [|c p IH]; simpl; auto. Qed.

Lemma prefix_app (p s : string) : String.prefix p (p ++ s) = true.
Proof.
  induction p as [|c p IH]; simpl.
  - destruct s; reflexivity.
  - destruct (ascii_dec c c) as [_|ne]; [exact IH | contradiction].
Qed.

Lemma TrimPrefix_app (p s : string) : TrimPrefix (p ++ s) p = s.
Proof.
  unfold TrimPrefix, HasPrefix. rewrite prefix_app. apply drop_app.
Qed.

Lemma versionFromGoMod_loop_none reqs bin :
  versionFromGoMod_loop reqs bin = None <->
  Forall (fun r => ~ matches bin r) reqs.
Proof.
  unfold matches. induction reqs as [|r reqs IH]; simpl.
  - split; auto.
  - destruct (String.eqb_spec (module.Version.Path (modfile.Require.Mod r))
                              (debug.Module_.Path bin)) as [e|ne].
    + split; [discriminate|]. intros H. inversion H; subst. contradiction.
    + rewrite IH. split.
      * intros H. constructor; assumption.
      * intros H. inversion H; assumption.
Qed.

Lemma versionFromGoMod_loop_first pre r post bin :
  Forall (fun x => ~ matches bin x) pre -> matches bin r ->
  versionFromGoMod_loop (pre ++ r :: post)%list bin
  = Some (modfile.Require.Mod r).
Proof.
  unfold matches. intros Hpre Hr.
  induction Hpre as [|x pre Hx _ IH]; simpl.
  - rewrite Hr, String.eqb_refl. reflexivity.
  - apply String.eqb_neq in Hx. rewrite Hx. exact IH.
Qed.

(** Every list with a match splits at its first match. *)
Lemma first_match_exists reqs bin r :
  In r reqs -> matches bin r ->
  exists pre r1 post,
    reqs = (pre ++ r1 :: post)%list /\
    Forall (fun x => ~ matches bin x) pre /\ matches bin r1.
Proof.
  unfold matches. induction reqs as [|x reqs IH]; intros Hin Hr.
  - destruct Hin.
  - destruct (string_dec (module.Version.Path (modfile.Require.Mod x))
                         (debug.Module_.Path bin)) as [e|ne].
    + exists [], x, reqs. auto.
    + destruct Hin as [->|Hin]; [contradiction|].
      destruct (IH Hin Hr) as (pre & r1 & post & -> & Hpre & Hr1).
      exists (x :: pre), r1, post. auto.
Qed.

Lemma requiresInstall_loop_app reqs1 reqs2 bin modv :
  Part001.requiresInstall_loop (reqs1 ++ reqs2)%list bin modv =
  Part001.requiresInstall_loop reqs2 bin
    (Part001.requiresInstall_loop reqs1 bin modv).
Proof.
  revert modv. induction reqs1 as [|r reqs1 IH]; intros modv; simpl; auto.
  destruct (negb _); apply IH.
Qed.

Lemma requiresInstall_loop_nomatch reqs bin modv :
  Forall (fun r => ~ matches bin r) reqs ->
  Part001.requiresInstall_loop reqs bin modv = modv.
Proof.
  unfold matches. intros H. induction H as [|r reqs Hr _ IH]; simpl; auto.
  apply String.eqb_neq in Hr. rewrite Hr. exact IH.
Qed.

(** The inline loop of part_001 ends on the last match. *)
Lemma requiresInstall_loop_last pre r post bin modv :
  matches bin r -> Forall (fun x => ~ matches bin x) post ->
  Part001.requiresInstall_loop (pre ++ r :: post)%list bin modv =
  Some (modfile.Require.Mod r).
Proof.
  unfold matches. intros Hr Hpost.
  rewrite requiresInstall_loop_app. simpl.
  rewrite Hr, String.eqb_refl. simpl.
  apply requiresInstall_loop_nomatch. exact Hpost.
Qed.

(** The package's comparison finds every version equal to itself. *)
Lemma compareInt_refl x : semver.compareInt x x = 0%Z.
Proof. unfold semver.compareInt. rewrite String.eqb_refl. reflexivity. Qed.

Lemma Compare_refl v : semver.Compare v v = 0%Z.
Proof.
  unfold semver.Compare. destruct (semver.parse v) as [p|]; [|reflexivity].
  rewrite !compareInt_refl. simpl.
  unfold semver.comparePrerelease. rewrite String.eqb_refl. reflexivity.
Qed.

(** The number of rounds given to the loop of [comparePrerelease] is
    enough: more rounds change nothing. *)
Lemma nextIdent_length x :
  String.length (snd (semver.nextIdent x)) <= String.length x.
Proof.
  induction x as [|c x IH]; simpl; auto.
  destruct (c =? ".")%char; simpl; auto.
  destruct (semver.nextIdent x) as [dx rest]. simpl in *. lia.
Qed.

Lemma comparePrerelease_loop_enough n m x y :
  String.length x <= n -> String.length x <= m ->
  semver.comparePrerelease_loop n x y = semver.comparePrerelease_loop m x y.
Proof.
  revert m x y. induction n as [|n IH]; intros m x y Hn Hm.
  - destruct x; simpl in Hn; [|lia]. destruct m; reflexivity.
  - destruct x as [|cx x1]; [destruct m; reflexivity|].
    destruct y as [|cy y1]; [destruct m; reflexivity|].
    destruct m as [|m]; simpl in Hm; [lia|]. simpl in Hn |- *.
    pose proof (nextIdent_length x1) as Hlen.
    destruct (semver.nextIdent x1) as [dx x2].
    destruct (semver.nextIdent y1) as [dy y2]. simpl in Hlen.
    destruct (negb (dx =? dy)); [reflexivity|].
    apply IH; lia.
Qed.

(** What [needsUpdateForGo] returns on a manifest with a go directive. *)
Lemma needsUpdateForGo_cases E gomod go info :
  modfile.File.Go gomod = Some go ->
  let m := modGoVersion (modfile.Go.Version go) in
  let b := binGoVersion (debug.BuildInfo.GoVersion info) in
  Part000.needsUpdateForGo E gomod info =
    if negb (semver_IsValid E m) then
      Returns (false, Some (Errorf ("parsing go.mod go version (" ++ m ++ ")")))
    else if negb (semver_IsValid E b) then
      Returns (false, Some (Errorf ("parsing binary go version (" ++ b ++ ")")))
    else Returns ((semver_Compare E b m =? -1)%Z, None).
Proof.
  intros Hgo m b. unfold Part000.needsUpdateForGo. rewrite Hgo. simpl.
  fold m b. destruct (negb (semver_IsValid E m)); [reflexivity|].
  destruct (negb (semver_IsValid E b)); [reflexivity|].
  destruct (semver_Compare E b m =? -1)%Z; reflexivity.
Qed.

(** The part of [requiresInstall] after the three reads succeeded. *)
Lemma requiresInstall_reads E binPath b gomod info :
  os_ReadFile E "go.mod" = inl b ->
  modfile_Parse E b = inl gomod ->
  buildinfo_ReadFile E binPath = inl info ->
  Part000.requiresInstall E binPath =
    (r <- Part000.needsUpdateForGo E gomod info ;;
     match r with
     | (_, Some err) => Returns (false, Some err)
     | (true, None) => Returns (true, None)
     | (false, None) =>
         match versionFromGoMod gomod (debug.BuildInfo.Main info) with
         | None => Returns (true, None)
         | Some modv =>
             Returns (negb (debug.Module_.Version (debug.BuildInfo.Main info)
                              =? module.Version.Version modv), None)
         end
     end).
Proof.
  intros Hread Hparse Hbin. unfold Part000.requiresInstall.
  rewrite Hread, Hparse, Hbin. reflexivity.
Qed.

Lemma negb_eqb_true (x y : string) : negb (x =? y) = true <-> x <> y.
Proof. rewrite negb_true_iff. apply String.eqb_neq. Qed.

Lemma negb_eqb_false (x y : string) : negb (x =? y) = false <-> x = y.
Proof. rewrite negb_false_iff. apply String.eqb_eq. Qed.

(* ================================================================= *)
(** ** The spec's concrete scenarios, run on part_000 *)

Example scenario_1_up_to_date :
  Part000.requiresInstall installed "bin/tool" = Returns (false, None).
Proof. reflexivity. Qed.

Example scenario_2_older_toolchain :
  Part000.requiresInstall installed_old "bin/tool" = Returns (true, None).
Proof. reflexivity. Qed.

Example scenario_3_other_version :
  Part000.requiresInstall
    (invocation (inl manifest) (inl manifest_file) "bin/tool"
       (inl (built "go1.22" "example.com/tool" "v1.1.0"))) "bin/tool"
  = Returns (true, None).
Proof. reflexivity. Qed.

Example scenario_4_no_binary :
  Part000.requiresInstall not_installed "bin/tool" = Returns (true, None).
Proof. reflexivity. Qed.

Example scenario_5_renamed :
  Part000.requiresInstall renamed "bin/tool" = Returns (true, None).
Proof. reflexivity. Qed.

Example scenario_6_no_manifest :
  Part000.requiresInstall empty_directory "bin/tool" =
  Returns (false, Some (Errorf_w "reading modfile: " (ENOENT "go.mod"))).
Proof. reflexivity. Qed.

(* ================================================================= *)
(** ** The missing binary *)

(** C1. For every manifest that was read and parsed, when the binary at the
    given path does not exist ([buildinfo.ReadFile] fails with an error that
    is [os.ErrNotExist]), [requiresInstall] returns [true] with a nil error.
    The manifest and the semver package are arbitrary, so neither the
    toolchain check nor the module lookup has a say.  Holds of part_000 and
    of main.go. *)
Theorem missing_binary_needs_install E binPath b gomod err :
  os_ReadFile E "go.mod" = inl b ->
  modfile_Parse E b = inl gomod ->
  buildinfo_ReadFile E binPath = inr err ->
  Is_ErrNotExist err = true ->
  Part000.requiresInstall E binPath = Returns (true, None) /\
  Main.requiresInstall E binPath = Returns (true, None).
Proof.
  intros Hread Hparse Hbin Hmissing.
  unfold Part000.requiresInstall, Main.requiresInstall, Main.moduleFromBinary.
  rewrite Hread, Hparse, Hbin, Hmissing. split; reflexivity.
Qed.

Lemma missing_binary_needs_install_witness :
  Part000.requiresInstall not_installed "bin/tool" = Returns (true, None) /\
  Main.requiresInstall not_installed "bin/tool" = Returns (true, None).
Proof.
  apply (@missing_binary_needs_install not_installed "bin/tool"
           manifest manifest_file (ENOENT "bin/tool")); reflexivity.
Defined.

(* ================================================================= *)
(** ** The module version check *)

(** C2. The binary exists, the toolchain check passes and the manifest has a
    requirement for the binary's module path, [r] being the first one.  Then
    [requiresInstall] returns [true] exactly when the two version strings
    differ and [false] exactly when they are the same string; the error is
    nil both times.  Holds of part_000 and of main.go. *)
Theorem module_version_decides E binPath b gomod info pre r post :
  os_ReadFile E "go.mod" = inl b ->
  modfile_Parse E b = inl gomod ->
  buildinfo_ReadFile E binPath = inl info ->
  Part000.needsUpdateForGo E gomod info = Returns (false, None) ->
  modfile.File.Require gomod = (pre ++ r :: post)%list ->
  Forall (fun x => ~ matches (debug.BuildInfo.Main info) x) pre ->
  matches (debug.BuildInfo.Main info) r ->
  let declared := debug.Module_.Version (debug.BuildInfo.Main info) in
  let required := module.Version.Version (modfile.Require.Mod r) in
  (Part000.requiresInstall E binPath = Returns (true, None)
     <-> declared <> required) /\
  (Part000.requiresInstall E binPath = Returns (false, None)
     <-> declared = required) /\
  (Main.requiresInstall E binPath = Returns (true, None)
     <-> declared <> required) /\
  (Main.requiresInstall E binPath = Returns (false, None)
     <-> declared = required).
Proof.
  intros Hread Hparse Hbin Hgo Hreq Hpre Hr declared required.
  assert (Hfound : versionFromGoMod gomod (debug.BuildInfo.Main info)
                   = Some (modfile.Require.Mod r)).
  { unfold versionFromGoMod. rewrite Hreq.
    apply versionFromGoMod_loop_first; assumption. }
  rewrite (requiresInstall_reads E binPath Hread Hparse Hbin), Hgo. simpl.
  unfold Main.requiresInstall, Main.moduleFromBinary.
  rewrite Hread, Hparse, Hbin, Hfound. fold declared required.
  assert (Hiff : forall v : bool,
    Returns (negb (declared =? required), @None error) = Returns (v, None)
    <-> negb (declared =? required) = v).
  { intros v. split; [intros H; injection H; auto | intros ->; reflexivity]. }
  rewrite !Hiff, negb_eqb_true, negb_eqb_false. tauto.
Qed.

Lemma module_version_decides_witness :
  (Part000.requiresInstall installed "bin/tool" = Returns (true, None)
     <-> "v1.2.0" <> "v1.2.0") /\
  (Part000.requiresInstall installed "bin/tool" = Returns (false, None)
     <-> "v1.2.0" = "v1.2.0") /\
  (Main.requiresInstall installed "bin/tool" = Returns (true, None)
     <-> "v1.2.0" <> "v1.2.0") /\
  (Main.requiresInstall installed "bin/tool" = Returns (false, None)
     <-> "v1.2.0" = "v1.2.0").
Proof.
  apply (@module_version_decides installed "bin/tool" manifest manifest_file
           tool [] (require "example.com/tool" "v1.2.0") []);
    try reflexivity.
  constructor.
Defined.

(* ================================================================= *)
(** ** The toolchain check *)

(** C3. The binary exists and both toolchain strings are valid once
    normalized.  If the binary's compares below the manifest's
    ([semver.Compare] gives -1), [requiresInstall] returns [true] whatever
    the module versions are.  Otherwise [needsUpdateForGo] returns [false]
    and the result is that of the module check alone. *)
Theorem toolchain_check E binPath b gomod go info :
  os_ReadFile E "go.mod" = inl b ->
  modfile_Parse E b = inl gomod ->
  buildinfo_ReadFile E binPath = inl info ->
  modfile.File.Go gomod = Some go ->
  let m := modGoVersion (modfile.Go.Version go) in
  let v := binGoVersion (debug.BuildInfo.GoVersion info) in
  semver_IsValid E m = true ->
  semver_IsValid E v = true ->
  (semver_Compare E v m = (-1)%Z ->
     Part000.requiresInstall E binPath = Returns (true, None)) /\
  (semver_Compare E v m <> (-1)%Z ->
     Part000.needsUpdateForGo E gomod info = Returns (false, None) /\
     Part000.requiresInstall E binPath =
       Returns (match versionFromGoMod gomod (debug.BuildInfo.Main info) with
                | None => true
                | Some modv =>
                    negb (debug.Module_.Version (debug.BuildInfo.Main info)
                            =? module.Version.Version modv)
                end, None)).
Proof.
  intros Hread Hparse Hbin Hgo m v Hm Hv.
  rewrite (requiresInstall_reads E binPath Hread Hparse Hbin).
  rewrite (needsUpdateForGo_cases E gomod info Hgo). fold m v.
  rewrite Hm, Hv. simpl. split.
  - intros ->. reflexivity.
  - intros Hge. apply Z.eqb_neq in Hge. rewrite Hge. simpl. split; auto.
    destruct (versionFromGoMod gomod (debug.BuildInfo.Main info)); reflexivity.
Qed.

Lemma toolchain_check_witness :
  Part000.requiresInstall installed_old "bin/tool" = Returns (true, None) /\
  Part000.needsUpdateForGo installed manifest_file tool
    = Returns (false, None) /\
  Part000.requiresInstall installed "bin/tool" = Returns (false, None).
Proof.
  split.
  - apply (@toolchain_check installed_old "bin/tool" manifest manifest_file
             (modfile.Go.mk "1.21")
             (built "go1.20" "example.com/tool" "v1.2.0")); reflexivity.
  - apply (@toolchain_check installed "bin/tool" manifest manifest_file
             (modfile.Go.mk "1.21") tool); try reflexivity.
    vm_compute. discriminate.
Defined.

(* ================================================================= *)
(** ** A module path the manifest does not require *)



(** The two older revisions report the same situation as an error. *)
Lemma unknown_path_is_error_before E binPath b gomod info :
  os_ReadFile E "go.mod" = inl b ->
  modfile_Parse E b = inl gomod ->
  buildinfo_ReadFile E binPath = inl info ->
  Forall (fun r => ~ matches (debug.BuildInfo.Main info) r)
         (modfile.File.Require gomod) ->
  let path := debug.Module_.Path (debug.BuildInfo.Main info) in
  Main.requiresInstall E binPath =
    Returns (false,
             Some (Errorf ("module (" ++ path ++ ") not found in modfile")))
  /\
  Part001.requiresInstall E binPath =
    Returns (false,
             Some (Errorf ("module (" ++ path ++ ") not found in modfile."))).
Proof.
  intros Hread Hparse Hbin Hnone path.
  unfold Main.requiresInstall, Main.moduleFromBinary, Part001.requiresInstall.
  rewrite Hread, Hparse, Hbin.
  rewrite (requiresInstall_loop_nomatch None Hnone).
  apply versionFromGoMod_loop_none in Hnone.
  unfold versionFromGoMod. rewrite Hnone. split; reflexivity.
Qed.

(* ================================================================= *)
(** ** A module path required more than once *)

(** C5, as amended.  When the manifest requires the binary's module path
    more than once, part_000 and main.go compare the binary's version with
    the first such requirement [r1]; a later one [r2] has no say. *)
Theorem first_requirement_wins E binPath b gomod info pre r1 mid r2 post :
  os_ReadFile E "go.mod" = inl b ->
  modfile_Parse E b = inl gomod ->
  buildinfo_ReadFile E binPath = inl info ->
  Part000.needsUpdateForGo E gomod info = Returns (false, None) ->
  modfile.File.Require gomod = (pre ++ r1 :: mid ++ r2 :: post)%list ->
  Forall (fun x => ~ matches (debug.BuildInfo.Main info) x) pre ->
  matches (debug.BuildInfo.Main info) r1 ->
  matches (debug.BuildInfo.Main info) r2 ->
  let declared := debug.Module_.Version (debug.BuildInfo.Main info) in
  let first := module.Version.Version (modfile.Require.Mod r1) in
  Part000.requiresInstall E binPath = Returns (negb (declared =? first), None)
  /\
  Main.requiresInstall E binPath = Returns (negb (declared =? first), None).
Proof.
  intros Hread Hparse Hbin Hgo Hreq Hpre Hr1 _ declared first.
  assert (Hfound : versionFromGoMod gomod (debug.BuildInfo.Main info)
                   = Some (modfile.Require.Mod r1)).
  { unfold versionFromGoMod. rewrite Hreq.
    apply versionFromGoMod_loop_first; assumption. }
  rewrite (requiresInstall_reads E binPath Hread Hparse Hbin), Hgo. simpl.
  unfold Main.requiresInstall, Main.moduleFromBinary.
  rewrite Hread, Hparse, Hbin, Hfound. split; reflexivity.
Qed.

Lemma first_requirement_wins_witness :
  Part000.requiresInstall installed_twice "bin/tool"
    = Returns (negb ("v1.2.0" =? "v1.2.0"), None) /\
  Main.requiresInstall installed_twice "bin/tool"
    = Returns (negb ("v1.2.0" =? "v1.2.0"), None).
Proof.
  apply (@first_requirement_wins installed_twice "bin/tool" manifest_twice
           manifest_twice_file tool
           [] (require "example.com/tool" "v1.2.0")
           [] (require "example.com/tool" "v1.3.0") []);
    try reflexivity.
  constructor.
Defined.

(** C5 as stated fails: the manifest requires example.com/tool at v1.2.0 and
    then at v1.3.0, the binary is at v1.2.0.  Against the last requirement
    the verdict would be [true]; part_000 and main.go return [false]. *)
Lemma last_requirement_wins_counterexample :
  let bin := debug.BuildInfo.Main tool in
  let last := require "example.com/tool" "v1.3.0" in
  modfile.File.Require manifest_twice_file
    = [require "example.com/tool" "v1.2.0"; last] /\
  matches bin last /\
  negb (debug.Module_.Version bin
          =? module.Version.Version (modfile.Require.Mod last)) = true /\
  Part000.needsUpdateForGo installed_twice manifest_twice_file tool
    = Returns (false, None) /\
  Part000.requiresInstall installed_twice "bin/tool" = Returns (false, None) /\
  Main.requiresInstall installed_twice "bin/tool" = Returns (false, None).
Proof. repeat split. Qed.

(** The oldest revision's inline loop does end on the last match. *)
Lemma last_requirement_wins_part001 E binPath b gomod info pre r post :
  os_ReadFile E "go.mod" = inl b ->
  modfile_Parse E b = inl gomod ->
  buildinfo_ReadFile E binPath = inl info ->
  modfile.File.Require gomod = (pre ++ r :: post)%list ->
  matches (debug.BuildInfo.Main info) r ->
  Forall (fun x => ~ matches (debug.BuildInfo.Main info) x) post ->
  Part001.requiresInstall E binPath =
    Returns (negb (debug.Module_.Version (debug.BuildInfo.Main info)
                     =? module.Version.Version (modfile.Require.Mod r)), None).
Proof.
  intros Hread Hparse Hbin Hreq Hr Hpost. unfold Part001.requiresInstall.
  rewrite Hread, Hparse, Hbin, Hreq.
  rewrite (requiresInstall_loop_last pre None Hr Hpost). reflexivity.
Qed.

Example part001_on_the_manifest_requiring_twice :
  Part001.requiresInstall installed_twice "bin/tool" = Returns (true, None).
Proof. reflexivity. Qed.

(* ================================================================= *)
(** ** Toolchain versions that are not semantic versions *)

(** On a manifest that has a go directive: the binary exists, and if the
    manifest's toolchain string or the binary's is not valid once
    normalized, [requiresInstall] returns [false] with a non-nil error: the
    go.mod error when the manifest's is invalid, otherwise the binary
    error. *)
Theorem invalid_toolchain_is_error E binPath b gomod go info :
  os_ReadFile E "go.mod" = inl b ->
  modfile_Parse E b = inl gomod ->
  buildinfo_ReadFile E binPath = inl info ->
  modfile.File.Go gomod = Some go ->
  let m := modGoVersion (modfile.Go.Version go) in
  let v := binGoVersion (debug.BuildInfo.GoVersion info) in
  semver_IsValid E m = false \/ semver_IsValid E v = false ->
  Part000.requiresInstall E binPath =
    Returns (false, Some (
      if semver_IsValid E m
      then Errorf ("parsing binary go version (" ++ v ++ ")")
      else Errorf ("parsing go.mod go version (" ++ m ++ ")"))).
Proof.
  intros Hread Hparse Hbin Hgo m v Hinvalid.
  rewrite (requiresInstall_reads E binPath Hread Hparse Hbin).
  rewrite (needsUpdateForGo_cases E gomod info Hgo). fold m v.
  destruct (semver_IsValid E m); simpl; [|reflexivity].
  destruct Hinvalid as [H|H]; [discriminate|]. rewrite H. reflexivity.
Qed.

Lemma invalid_toolchain_is_error_witness :
  Part000.requiresInstall installed_rc "bin/tool" =
    Returns (false, Some (Errorf "parsing go.mod go version (v1.21rc1)")) /\
  Part000.requiresInstall installed_by_rc "bin/tool" =
    Returns (false, Some (Errorf "parsing binary go version (v1.22rc1)")).
Proof.
  split.
  - apply (@invalid_toolchain_is_error installed_rc "bin/tool" manifest_rc
             manifest_rc_file (modfile.Go.mk "1.21rc1") tool);
      try reflexivity.
    left. reflexivity.
  - apply (@invalid_toolchain_is_error installed_by_rc "bin/tool" manifest
             manifest_file (modfile.Go.mk "1.21")
             (built "go1.22rc1" "example.com/tool" "v1.2.0"));
      try reflexivity.
    right. reflexivity.
Defined.

Example binary_built_by_a_development_toolchain :
  Part000.requiresInstall
    (invocation (inl manifest) (inl manifest_file) "bin/tool"
       (inl (built "devel +a1b2c3" "example.com/tool" "v1.2.0"))) "bin/tool"
  = Returns (false,
             Some (Errorf "parsing binary go version (vdevel +a1b2c3)")).
Proof. reflexivity. Qed.

(** C6. The claim asks for an error whenever the binary exists and one of
    the two toolchain strings is not a valid version, for every manifest.
    part_000 misses the manifest without a go directive: the parser accepts
    it and leaves [File.Go] nil, [needsUpdateForGo] reads [gomod.Go.Version]
    before it validates anything, and the call panics although the binary's
    toolchain, a development build, is not a valid version and the error
    "parsing binary go version" was due. *)
Theorem invalid_toolchain_without_go_directive_panics :
  let info := built "devel +a1b2c3" "example.com/tool" "v1.2.0" in
  let E := invocation (inl manifest_nogo) (inl manifest_nogo_file)
                      "bin/tool" (inl info) in
  os_ReadFile E "go.mod" = inl manifest_nogo /\
  modfile_Parse E manifest_nogo = inl manifest_nogo_file /\
  modfile.File.Go manifest_nogo_file = None /\
  buildinfo_ReadFile E "bin/tool" = inl info /\
  semver_IsValid E (binGoVersion (debug.BuildInfo.GoVersion info)) = false /\
  Part000.needsUpdateForGo E manifest_nogo_file info = Panics /\
  Part000.requiresInstall E "bin/tool" = Panics.
Proof.
  intros info E. unfold E, info.
  repeat match goal with |- _ /\ _ => split end; reflexivity.
Qed.

(* ================================================================= *)
(** ** Manifests the parser rejects *)

(** C7, as amended.  When go.mod is read and [modfile.Parse] rejects its
    bytes, every revision returns [false] with the parser's error wrapped as
    "parsing modfile: ...", whatever is at the binary's path. *)
Theorem rejected_manifest_is_error E binPath b e :
  os_ReadFile E "go.mod" = inl b ->
  modfile_Parse E b = inr e ->
  let failure := Returns (false, Some (Errorf_w "parsing modfile: " e)) in
  Part000.requiresInstall E binPath = failure /\
  Main.requiresInstall E binPath = failure /\
  Part001.requiresInstall E binPath = failure.
Proof.
  intros Hread Hparse failure.
  unfold Part000.requiresInstall, Main.requiresInstall,
    Part001.requiresInstall.
  rewrite Hread, Hparse. repeat split.
Qed.

Lemma rejected_manifest_is_error_witness :
  let failure :=
    Returns (false,
             Some (Errorf_w "parsing modfile: " manifest_broken_error)) in
  Part000.requiresInstall broken "bin/tool" = failure /\
  Main.requiresInstall broken "bin/tool" = failure /\
  Part001.requiresInstall broken "bin/tool" = failure.
Proof.
  apply (@rejected_manifest_is_error broken "bin/tool" manifest_broken
           manifest_broken_error); reflexivity.
Defined.

(** C7 as stated fails on a manifest without a go directive: the parser
    accepts it and leaves [File.Go] nil.  With no binary every revision
    answers [true], a verdict and no error; with the binary in place main.go
    answers [false], again a verdict, and part_000 dereferences the nil
    pointer. *)
Lemma manifest_without_go_counterexample :
  os_ReadFile not_installed_nogo "go.mod" = inl manifest_nogo /\
  modfile_Parse not_installed_nogo manifest_nogo = inl manifest_nogo_file /\
  modfile.File.Go manifest_nogo_file = None /\
  Part000.requiresInstall not_installed_nogo "bin/tool"
    = Returns (true, None) /\
  Main.requiresInstall not_installed_nogo "bin/tool" = Returns (true, None) /\
  Main.requiresInstall installed_nogo "bin/tool" = Returns (false, None) /\
  Part000.requiresInstall installed_nogo "bin/tool" = Panics.
Proof. repeat split. Qed.

(* ================================================================= *)
(** ** Normalizing the two toolchain strings *)

(** C8, as amended.  The manifest's bare release string [s] and the binary's
    prefixed string go[s] are normalized to the same string v[s].  The
    toolchain check therefore compares a version with itself: where the
    semver package finds that equal, the comparison is 0 and
    [needsUpdateForGo] returns [false], with the go.mod error when v[s] is
    not a valid version and a nil error otherwise. *)
Theorem normalization_unifies_grammars E s gomod info :
  modfile.File.Go gomod = Some (modfile.Go.mk s) ->
  debug.BuildInfo.GoVersion info = "go" ++ s ->
  semver_Compare E (modGoVersion s) (modGoVersion s) = 0%Z ->
  binGoVersion (debug.BuildInfo.GoVersion info) = modGoVersion s /\
  semver_Compare E (binGoVersion (debug.BuildInfo.GoVersion info))
                   (modGoVersion s) = 0%Z /\
  Part000.needsUpdateForGo E gomod info =
    Returns (false,
             if semver_IsValid E (modGoVersion s) then None
             else Some (Errorf ("parsing go.mod go version ("
                                  ++ modGoVersion s ++ ")"))).
Proof.
  intros Hgo Hinfo Hrefl.
  assert (Hsame : binGoVersion (debug.BuildInfo.GoVersion info)
                  = modGoVersion s).
  { rewrite Hinfo. unfold binGoVersion, modGoVersion.
    rewrite (TrimPrefix_app "go" s). reflexivity. }
  split; [exact Hsame|]. rewrite Hsame. split; [exact Hrefl|].
  rewrite (needsUpdateForGo_cases E gomod info Hgo). simpl.
  rewrite Hsame, Hrefl.
  destruct (semver_IsValid E (modGoVersion s)); reflexivity.
Qed.

Lemma normalization_unifies_grammars_witness :
  binGoVersion "go1.21" = modGoVersion "1.21" /\
  semver.Compare (binGoVersion "go1.21") (modGoVersion "1.21") = 0%Z /\
  Part000.needsUpdateForGo installed manifest_file
    (built "go1.21" "example.com/tool" "v1.2.0") = Returns (false, None).
Proof.
  apply (@normalization_unifies_grammars installed "1.21" manifest_file
           (built "go1.21" "example.com/tool" "v1.2.0")); reflexivity.
Defined.

(** With the semver package as modelled, that holds of every string. *)
Lemma normalized_forms_compare_equal s :
  semver.Compare (binGoVersion ("go" ++ s)) (modGoVersion s) = 0%Z.
Proof.
  unfold binGoVersion, modGoVersion. rewrite (TrimPrefix_app "go" s).
  apply Compare_refl.
Qed.

(** C8 as stated fails: normalization is not idempotent.  Normalizing the
    binary's go1.21 gives v1.21; normalizing that again gives vv1.21 (and so
    does the manifest's rule), which is not a valid version, so the toolchain
    check that passed on go1.21 fails on its normal form. *)
Lemma normalization_idempotent_counterexample :
  binGoVersion "go1.21" = "v1.21" /\
  binGoVersion (binGoVersion "go1.21") = "vv1.21" /\
  modGoVersion (modGoVersion "1.21") = "vv1.21" /\
  semver.IsValid (binGoVersion "go1.21") = true /\
  semver.IsValid (binGoVersion (binGoVersion "go1.21")) = false /\
  Part000.needsUpdateForGo installed manifest_file
    (built "go1.21" "example.com/tool" "v1.2.0") = Returns (false, None) /\
  Part000.needsUpdateForGo installed manifest_file
    (built (binGoVersion "go1.21") "example.com/tool" "v1.2.0")
  = Returns (false, Some (Errorf "parsing binary go version (vv1.21)")).
Proof. repeat split. Qed.

(* ================================================================= *)
(** ** Directives other than require *)

(** C9. The module lookup reads [File.Require] only.  Whatever the exclude
    and replace directives of the manifest, the lookup and the toolchain
    check give what they give without them; and a binary whose module path
    no requirement has is not found, even if a replace directive names the
    path: part_000 then returns [true] (once the toolchain check has
    passed), part_001 its not-found error. *)
Theorem only_requirements_are_consulted E binPath b go reqs excl repl info :
  os_ReadFile E "go.mod" = inl b ->
  modfile_Parse E b = inl (modfile.File.mk go reqs excl repl) ->
  buildinfo_ReadFile E binPath = inl info ->
  Forall (fun r => ~ matches (debug.BuildInfo.Main info) r) reqs ->
  let gomod := modfile.File.mk go reqs excl repl in
  let bare := modfile.File.mk go reqs [] [] in
  let bin := debug.BuildInfo.Main info in
  versionFromGoMod gomod bin = versionFromGoMod bare bin /\
  Part000.needsUpdateForGo E gomod info = Part000.needsUpdateForGo E bare info
  /\
  versionFromGoMod gomod bin = None /\
  (Part000.needsUpdateForGo E gomod info = Returns (false, None) ->
   Part000.requiresInstall E binPath = Returns (true, None)) /\
  Part001.requiresInstall E binPath =
    Returns (false,
             Some (Errorf ("module (" ++ debug.Module_.Path bin
                             ++ ") not found in modfile."))).
Proof.
  intros Hread Hparse Hbin Hnone gomod bare bin.
  assert (Hlookup : versionFromGoMod gomod bin = None).
  { apply versionFromGoMod_loop_none. exact Hnone. }
  split; [reflexivity|]. split; [reflexivity|]. split; [exact Hlookup|].
  split.
  - intros Hgo.
    rewrite (requiresInstall_reads E binPath Hread Hparse Hbin).
    fold gomod. rewrite Hgo. simpl. fold bin. rewrite Hlookup. reflexivity.
  - unfold Part001.requiresInstall. rewrite Hread, Hparse, Hbin.
    cbn [modfile.File.Require].
    rewrite (requiresInstall_loop_nomatch None Hnone). reflexivity.
Qed.

Lemma only_requirements_are_consulted_witness :
  modfile.File.Replace manifest_replace_file
    = [modfile.Replace.mk (module.Version.mk "example.com/tool" "")
                          (module.Version.mk "example.com/fork" "v1.2.0")] /\
  Part000.requiresInstall installed_replace "bin/tool" = Returns (true, None)
  /\
  Part001.requiresInstall installed_replace "bin/tool" =
    Returns (false,
             Some (Errorf "module (example.com/tool) not found in modfile.")).
Proof.
  split; [reflexivity|].
  destruct (@only_requirements_are_consulted installed_replace "bin/tool"
              manifest_replace (Some (modfile.Go.mk "1.21")) [] []
              (modfile.File.Replace manifest_replace_file) tool
              eq_refl eq_refl eq_refl (Forall_nil _))
    as (_ & _ & _ & H000 & H001).
  split; [apply H000; reflexivity | exact H001].
Defined.

(* ================================================================= *)
(** ** The order of the checks *)

(** C10. Let the binary be missing.  If go.mod is read and parsed the
    answer is [true] with a nil error for every parsed manifest, so also for
    one whose toolchain string is no valid version; if go.mod cannot be
    read, or is read and rejected by the parser, the answer is that error,
    missing binary or not. *)
Theorem manifest_before_binary_before_toolchain E binPath err :
  buildinfo_ReadFile E binPath = inr err ->
  Is_ErrNotExist err = true ->
  (forall b gomod,
     os_ReadFile E "go.mod" = inl b -> modfile_Parse E b = inl gomod ->
     Part000.requiresInstall E binPath = Returns (true, None)) /\
  (forall e,
     os_ReadFile E "go.mod" = inr e ->
     Part000.requiresInstall E binPath =
       Returns (false, Some (Errorf_w "reading modfile: " e))) /\
  (forall b e,
     os_ReadFile E "go.mod" = inl b -> modfile_Parse E b = inr e ->
     Part000.requiresInstall E binPath =
       Returns (false, Some (Errorf_w "parsing modfile: " e))).
Proof.
  intros Hbin Hmissing. unfold Part000.requiresInstall. repeat split.
  - intros b gomod Hread Hparse.
    rewrite Hread, Hparse, Hbin, Hmissing. reflexivity.
  - intros e Hread. rewrite Hread. reflexivity.
  - intros b e Hread Hparse. rewrite Hread, Hparse. reflexivity.
Qed.

Lemma manifest_before_binary_before_toolchain_witness :
  semver.IsValid (modGoVersion "1.21rc1") = false /\
  Part000.requiresInstall not_installed_rc "bin/tool" = Returns (true, None)
  /\
  Part000.requiresInstall empty_directory "bin/tool" =
    Returns (false, Some (Errorf_w "reading modfile: " (ENOENT "go.mod"))) /\
  Part000.requiresInstall broken "bin/tool" =
    Returns (false,
             Some (Errorf_w "parsing modfile: " manifest_broken_error)).
Proof.
  split; [reflexivity|].
  split; [|split].
  - apply (proj1 (@manifest_before_binary_before_toolchain not_installed_rc
                    "bin/tool" (ENOENT "bin/tool") eq_refl eq_refl)
             manifest_rc manifest_rc_file); reflexivity.
  - apply (proj1 (proj2 (@manifest_before_binary_before_toolchain
                    empty_directory "bin/tool" (ENOENT "bin/tool")
                    eq_refl eq_refl))). reflexivity.
  - apply (proj2 (proj2 (@manifest_before_binary_before_toolchain
                    broken "bin/tool" (ENOENT "bin/tool") eq_refl eq_refl))
             manifest_broken); reflexivity.
Defined.

(* ================================================================= *)
(** ** From the result of [requiresInstall] to the exit status *)

(** X1. When [requiresInstall] returns, [RunE] followed by [main] ends the
    process with status 0 exactly for [(false, nil)], with status 2 exactly
    for [(true, nil)] and with status 1 exactly for a non-nil error; [main]
    writes to standard error in the last case only, the line
    "error: " + the error's message. *)
Theorem exit_status_of_result requiresInstall binPath needsInstall err :
  requiresInstall binPath = Returns (needsInstall, err) ->
  exists ex,
    main (RunE requiresInstall [binPath]) = Returns ex /\
    (Code ex = 0%Z <-> needsInstall = false /\ err = None) /\
    (Code ex = 2%Z <-> needsInstall = true /\ err = None) /\
    (Code ex = 1%Z <-> err <> None) /\
    Stderr ex = match err with
                | Some e => "error: " ++ Error e ++ newline
                | None => ""
                end.
Proof.
  intros Hres. unfold RunE. rewrite Hres. simpl.
  destruct needsInstall, err as [e|]; simpl;
    eexists; (split; [reflexivity|]); simpl;
    repeat split; try discriminate; try congruence;
    intros H; try (destruct H; discriminate); try congruence.
Qed.

Lemma exit_status_of_result_witness :
  exists ex,
    main (RunE (Part000.requiresInstall installed_old) ["bin/tool"])
      = Returns ex /\
    (Code ex = 0%Z <-> true = false /\ @None error = None) /\
    (Code ex = 2%Z <-> true = true /\ @None error = None) /\
    (Code ex = 1%Z <-> @None error <> None) /\
    Stderr ex = "".
Proof.
  apply (@exit_status_of_result (Part000.requiresInstall installed_old)
           "bin/tool" true None). reflexivity.
Defined.

(** X2. With go.mod read and parsed and no file at the binary's path, every
    revision ends with status 2 and [main] prints nothing. *)
Theorem missing_binary_exits_2 E binPath b gomod err :
  os_ReadFile E "go.mod" = inl b ->
  modfile_Parse E b = inl gomod ->
  buildinfo_ReadFile E binPath = inr err ->
  Is_ErrNotExist err = true ->
  main (RunE (Part000.requiresInstall E) [binPath]) = Returns (mkExit "" 2) /\
  main (RunE (Main.requiresInstall E) [binPath]) = Returns (mkExit "" 2) /\
  main (RunE (Part001.requiresInstall E) [binPath]) = Returns (mkExit "" 2).
Proof.
  intros Hread Hparse Hbin Hmissing.
  unfold RunE, Part000.requiresInstall, Main.requiresInstall,
    Main.moduleFromBinary, Part001.requiresInstall.
  rewrite Hread, Hparse, Hbin, Hmissing. repeat split.
Qed.

Lemma missing_binary_exits_2_witness :
  main (RunE (Part000.requiresInstall not_installed) ["bin/tool"])
    = Returns (mkExit "" 2) /\
  main (RunE (Main.requiresInstall not_installed) ["bin/tool"])
    = Returns (mkExit "" 2) /\
  main (RunE (Part001.requiresInstall not_installed) ["bin/tool"])
    = Returns (mkExit "" 2).
Proof.
  apply (@missing_binary_exits_2 not_installed "bin/tool" manifest
           manifest_file (ENOENT "bin/tool")); reflexivity.
Defined.

(** X3. When go.mod cannot be read, every revision returns [false] and the
    read error wrapped as "reading modfile: ...", without looking at the
    binary.  The wrapped error is [os.ErrNotExist] exactly when the read
    error is, and even then the process ends with status 1, not 2. *)
Theorem unreadable_manifest_exits_1 E binPath e :
  os_ReadFile E "go.mod" = inr e ->
  let failure := Errorf_w "reading modfile: " e in
  let ex := mkExit ("error: reading modfile: " ++ Error e ++ newline) 1 in
  Is_ErrNotExist failure = Is_ErrNotExist e /\
  (Part000.requiresInstall E binPath = Returns (false, Some failure) /\
   main (RunE (Part000.requiresInstall E) [binPath]) = Returns ex) /\
  (Main.requiresInstall E binPath = Returns (false, Some failure) /\
   main (RunE (Main.requiresInstall E) [binPath]) = Returns ex) /\
  (Part001.requiresInstall E binPath = Returns (false, Some failure) /\
   main (RunE (Part001.requiresInstall E) [binPath]) = Returns ex).
Proof.
  intros Hread failure ex.
  unfold RunE, Part000.requiresInstall, Main.requiresInstall,
    Part001.requiresInstall.
  rewrite Hread. repeat split.
Qed.

Lemma unreadable_manifest_exits_1_witness :
  Is_ErrNotExist (Errorf_w "reading modfile: " (ENOENT "go.mod")) = true /\
  main (RunE (Part000.requiresInstall empty_directory) ["bin/tool"]) =
    Returns (mkExit
      ("error: reading modfile: open go.mod: no such file or directory"
         ++ newline) 1).
Proof.
  destruct (@unreadable_manifest_exits_1 empty_directory "bin/tool"
              (ENOENT "go.mod") eq_refl) as (His & (_ & H000) & _).
  split; [exact His | exact H000].
Defined.

(** X4. A file at the binary's path from which no build information can be
    read (any error other than [os.ErrNotExist]) is an error in every
    revision, "reading binary buildinfo (path): ...", and status 1: it is
    not taken for a missing binary. *)
Theorem unreadable_binary_exits_1 E binPath b gomod err :
  os_ReadFile E "go.mod" = inl b ->
  modfile_Parse E b = inl gomod ->
  buildinfo_ReadFile E binPath = inr err ->
  Is_ErrNotExist err = false ->
  let failure :=
    Errorf_w ("reading binary buildinfo (" ++ binPath ++ "): ") err in
  let ex := mkExit ("error: " ++ Error failure ++ newline) 1 in
  (Part000.requiresInstall E binPath = Returns (false, Some failure) /\
   main (RunE (Part000.requiresInstall E) [binPath]) = Returns ex) /\
  (Main.requiresInstall E binPath = Returns (false, Some failure) /\
   main (RunE (Main.requiresInstall E) [binPath]) = Returns ex) /\
  (Part001.requiresInstall E binPath = Returns (false, Some failure) /\
   main (RunE (Part001.requiresInstall E) [binPath]) = Returns ex).
Proof.
  intros Hread Hparse Hbin Hother failure ex.
  unfold RunE, Part000.requiresInstall, Main.requiresInstall,
    Main.moduleFromBinary, Part001.requiresInstall.
  rewrite Hread, Hparse, Hbin, Hother. repeat split.
Qed.

Lemma unreadable_binary_exits_1_witness :
  Part000.requiresInstall installed_beside_notes "bin/notes" =
    Returns (false,
             Some (Errorf_w "reading binary buildinfo (bin/notes): "
                            not_a_binary)) /\
  main (RunE (Part000.requiresInstall installed_beside_notes) ["bin/notes"])
    = Returns (mkExit
        ("error: reading binary buildinfo (bin/notes): "
           ++ Error not_a_binary ++ newline) 1).
Proof.
  apply (@unreadable_binary_exits_1 installed_beside_notes "bin/notes"
           manifest manifest_file not_a_binary); reflexivity.
Defined.

(* ================================================================= *)
(** ** What [requiresInstall] can and cannot return *)

Ltac split_reads E binPath :=
  destruct (os_ReadFile E "go.mod") as [?b|?e] eqn:?Hread;
  [ match goal with b : string |- _ =>
      destruct (modfile_Parse E b) as [?gomod|?e] eqn:?Hparse end;
    [ destruct (buildinfo_ReadFile E binPath) as [?info|?err] eqn:?Hbin;
      [ | match goal with err : error |- _ =>
            destruct (Is_ErrNotExist err) eqn:?Hmissing end ]
    | ]
  | ].

(** X5. No revision returns [true] together with an error: a non-nil error
    always comes with [false]. *)
Theorem error_comes_with_false E binPath needsInstall e :
  (Part000.requiresInstall E binPath = Returns (needsInstall, Some e) ->
   needsInstall = false) /\
  (Main.requiresInstall E binPath = Returns (needsInstall, Some e) ->
   needsInstall = false) /\
  (Part001.requiresInstall E binPath = Returns (needsInstall, Some e) ->
   needsInstall = false).
Proof.
  unfold Part000.requiresInstall, Main.requiresInstall,
    Main.moduleFromBinary, Part001.requiresInstall.
  split_reads E binPath; repeat split; intros H; try congruence.
  - destruct (Part000.needsUpdateForGo E gomod info) as [[[|] [err|]]|];
      simpl in H; try congruence.
    destruct (versionFromGoMod gomod (debug.BuildInfo.Main info));
      congruence.
  - destruct (versionFromGoMod gomod (debug.BuildInfo.Main info));
      congruence.
  - destruct (Part001.requiresInstall_loop _ _ _); congruence.
Qed.

Lemma error_comes_with_false_witness :
  Part000.requiresInstall installed_by_rc "bin/tool" =
    Returns (false, Some (Errorf "parsing binary go version (v1.22rc1)")) /\
  false = false.
Proof.
  split; [reflexivity|].
  apply (proj1 (@error_comes_with_false installed_by_rc "bin/tool" false
                  (Errorf "parsing binary go version (v1.22rc1)"))).
  reflexivity.
Defined.

(** X6. main.go and part_001 always return.  part_000 panics in one
    situation only: go.mod is read and parsed, the binary's build
    information is read, and the manifest has no go directive. *)
Theorem panics_only_without_go_directive E binPath :
  (Part000.requiresInstall E binPath = Panics <->
   exists b gomod info,
     os_ReadFile E "go.mod" = inl b /\ modfile_Parse E b = inl gomod /\
     buildinfo_ReadFile E binPath = inl info /\
     modfile.File.Go gomod = None) /\
  (exists r, Main.requiresInstall E binPath = Returns r) /\
  (exists r, Part001.requiresInstall E binPath = Returns r).
Proof.
  unfold Part000.requiresInstall, Main.requiresInstall,
    Main.moduleFromBinary, Part001.requiresInstall.
  split_reads E binPath;
    (split;
     [ split; [ try discriminate
              | intros (b' & g' & i' & H1 & H2 & H3 & H4); try congruence ]
     | split; try (eexists; reflexivity) ]).
  - destruct (modfile.File.Go gomod) as [go|] eqn:Hgo.
    + rewrite (needsUpdateForGo_cases E gomod info Hgo). simpl.
      destruct (negb _); [discriminate|].
      destruct (negb _); [discriminate|].
      destruct (_ =? _)%Z; [discriminate|]. simpl.
      destruct (versionFromGoMod _ _); discriminate.
    + intros _. exists b, gomod, info. auto.
  - assert (b' = b) by congruence. subst b'.
    assert (g' = gomod) by congruence. subst g'.
    unfold Part000.needsUpdateForGo. rewrite H4. reflexivity.
  - destruct (versionFromGoMod _ _); eexists; reflexivity.
  - destruct (Part001.requiresInstall_loop _ _ _); eexists; reflexivity.
Qed.

(** X7. part_000 answers [(false, nil)], up to date, exactly when go.mod is
    read and parsed, the binary's build information is read, both toolchain
    strings are valid once normalized, the binary's does not compare below
    the manifest's, and the first requirement for the binary's module path
    carries the binary's version. *)
Theorem up_to_date_iff E binPath :
  Part000.requiresInstall E binPath = Returns (false, None) <->
  exists b gomod info go modv,
    os_ReadFile E "go.mod" = inl b /\ modfile_Parse E b = inl gomod /\
    buildinfo_ReadFile E binPath = inl info /\
    modfile.File.Go gomod = Some go /\
    semver_IsValid E (modGoVersion (modfile.Go.Version go)) = true /\
    semver_IsValid E (binGoVersion (debug.BuildInfo.GoVersion info)) = true /\
    semver_Compare E (binGoVersion (debug.BuildInfo.GoVersion info))
                     (modGoVersion (modfile.Go.Version go)) <> (-1)%Z /\
    versionFromGoMod gomod (debug.BuildInfo.Main info) = Some modv /\
    debug.Module_.Version (debug.BuildInfo.Main info)
      = module.Version.Version modv.
Proof.
  split.
  - unfold Part000.requiresInstall.
    split_reads E binPath; try discriminate.
    destruct (modfile.File.Go gomod) as [go|] eqn:Hgo;
      [|unfold Part000.needsUpdateForGo; rewrite Hgo; discriminate].
    rewrite (needsUpdateForGo_cases E gomod info Hgo). simpl.
    destruct (semver_IsValid E (modGoVersion _)) eqn:Hm; [|discriminate].
    destruct (semver_IsValid E (binGoVersion _)) eqn:Hv; [|discriminate].
    simpl.
    destruct (_ =? _)%Z eqn:Hcmp; [discriminate|]. simpl.
    destruct (versionFromGoMod _ _) as [modv|] eqn:Hfound; [|discriminate].
    intros H. exists b, gomod, info, go, modv.
    repeat match goal with |- _ /\ _ => split end; auto.
    + apply Z.eqb_neq. exact Hcmp.
    + apply negb_eqb_false. congruence.
  - intros (b & gomod & info & go & modv & Hread & Hparse & Hbin & Hgo & Hm
            & Hv & Hcmp & Hfound & Hsame).
    rewrite (requiresInstall_reads E binPath Hread Hparse Hbin).
    rewrite (needsUpdateForGo_cases E gomod info Hgo). simpl.
    rewrite Hm, Hv. simpl. apply Z.eqb_neq in Hcmp. rewrite Hcmp. simpl.
    rewrite Hfound. apply negb_eqb_false in Hsame. rewrite Hsame. reflexivity.
Qed.

(** X8. part_000 answers [(true, nil)], install, exactly when go.mod is read
    and parsed and either there is no file at the binary's path, or the
    build information is read, both toolchain strings are valid, and one of
    three holds: the binary's toolchain compares below the manifest's, no
    requirement has the binary's module path, or the first that has it
    carries another version. *)
Theorem needs_install_iff E binPath :
  Part000.requiresInstall E binPath = Returns (true, None) <->
  exists b gomod,
    os_ReadFile E "go.mod" = inl b /\ modfile_Parse E b = inl gomod /\
    ((exists err, buildinfo_ReadFile E binPath = inr err /\
                  Is_ErrNotExist err = true) \/
     (exists info go,
        buildinfo_ReadFile E binPath = inl info /\
        modfile.File.Go gomod = Some go /\
        let m := modGoVersion (modfile.Go.Version go) in
        let v := binGoVersion (debug.BuildInfo.GoVersion info) in
        let bin := debug.BuildInfo.Main info in
        semver_IsValid E m = true /\ semver_IsValid E v = true /\
        (semver_Compare E v m = (-1)%Z \/
         versionFromGoMod gomod bin = None \/
         exists modv, versionFromGoMod gomod bin = Some modv /\
                      debug.Module_.Version bin
                        <> module.Version.Version modv))).
Proof.
  split.
  - unfold Part000.requiresInstall.
    split_reads E binPath; try discriminate.
    + destruct (modfile.File.Go gomod) as [go|] eqn:Hgo;
        [|unfold Part000.needsUpdateForGo; rewrite Hgo; discriminate].
      rewrite (needsUpdateForGo_cases E gomod info Hgo). simpl.
      destruct (semver_IsValid E (modGoVersion _)) eqn:Hm; [|discriminate].
      destruct (semver_IsValid E (binGoVersion _)) eqn:Hv; [|discriminate].
      simpl. intros H. exists b, gomod. do 2 (split; [solve [auto]|]).
      right. exists info, go. do 2 (split; [solve [auto]|]).
      simpl. rewrite Hm, Hv. do 2 (split; [solve [auto]|]).
      destruct (_ =? _)%Z eqn:Hcmp; [left; apply Z.eqb_eq; exact Hcmp|].
      right. simpl in H.
      destruct (versionFromGoMod _ _) as [modv|]; [|left; reflexivity].
      right. exists modv. split; [reflexivity|].
      apply negb_eqb_true. congruence.
    + intros _. exists b, gomod. do 2 (split; [solve [auto]|]).
      left. exists err. auto.
  - intros (b & gomod & Hread & Hparse & [(err & Hbin & Hmissing)
            | (info & go & Hbin & Hgo & Hm & Hv & Hcases)]).
    + unfold Part000.requiresInstall.
      rewrite Hread, Hparse, Hbin, Hmissing. reflexivity.
    + rewrite (requiresInstall_reads E binPath Hread Hparse Hbin).
      rewrite (needsUpdateForGo_cases E gomod info Hgo). simpl.
      rewrite Hm, Hv. simpl.
      destruct (_ =? _)%Z eqn:Hcmp; [reflexivity|]. simpl.
      destruct Hcases as [Hlt | [Hnone | (modv & Hfound & Hdiff)]].
      * apply Z.eqb_neq in Hcmp. contradiction.
      * rewrite Hnone. reflexivity.
      * rewrite Hfound. apply negb_eqb_true in Hdiff. rewrite Hdiff.
        reflexivity.
Qed.

(* ================================================================= *)
(** ** The module lookups *)

Lemma versionFromGoMod_loop_app reqs1 reqs2 bin :
  versionFromGoMod_loop (reqs1 ++ reqs2)%list bin =
  match versionFromGoMod_loop reqs1 bin with
  | Some m => Some m
  | None => versionFromGoMod_loop reqs2 bin
  end.
Proof.
  induction reqs1 as [|r reqs1 IH]; simpl; auto.
  destruct (_ =? _); auto.
Qed.

Lemma requiresInstall_loop_sound reqs bin modv m :
  Part001.requiresInstall_loop reqs bin modv = Some m ->
  modv = Some m \/
  exists r, In r reqs /\ modfile.Require.Mod r = m /\ matches bin r.
Proof.
  revert modv. induction reqs as [|r reqs IH]; simpl; intros modv H; auto.
  destruct (String.eqb_spec (module.Version.Path (modfile.Require.Mod r))
                            (debug.Module_.Path bin)) as [e|ne]; simpl in H.
  - destruct (IH _ H) as [Hhere | (r' & Hin & Hmod & Hr')].
    + right. exists r. injection Hhere as <-. auto.
    + right. exists r'. auto.
  - destruct (IH _ H) as [Hhere | (r' & Hin & Hmod & Hr')]; auto.
    right. exists r'. auto.
Qed.

Lemma versionFromGoMod_loop_sound reqs bin m :
  versionFromGoMod_loop reqs bin = Some m ->
  exists r, In r reqs /\ modfile.Require.Mod r = m /\ matches bin r.
Proof.
  unfold matches. induction reqs as [|r reqs IH]; simpl; [discriminate|].
  destruct (String.eqb_spec (module.Version.Path (modfile.Require.Mod r))
                            (debug.Module_.Path bin)) as [e|ne].
  - intros H. injection H as <-. exists r. auto.
  - intros H. destruct (IH H) as (r' & Hin & Hmod & Hr'). exists r'. auto.
Qed.

Lemma requiresInstall_loop_some reqs bin m :
  exists m', Part001.requiresInstall_loop reqs bin (Some m) = Some m'.
Proof.
  revert m. induction reqs as [|r reqs IH]; simpl; intros m.
  - exists m. reflexivity.
  - destruct (negb _); apply IH.
Qed.

Lemma requiresInstall_loop_none reqs bin modv :
  Part001.requiresInstall_loop reqs bin modv = None ->
  Forall (fun r => ~ matches bin r) reqs.
Proof.
  unfold matches. revert modv.
  induction reqs as [|r reqs IH]; simpl; intros modv H; [constructor|].
  destruct (String.eqb_spec (module.Version.Path (modfile.Require.Mod r))
                            (debug.Module_.Path bin)) as [e|ne]; simpl in H.
  - destruct (requiresInstall_loop_some reqs bin (modfile.Require.Mod r))
      as (m' & Hsome). congruence.
  - constructor; [exact ne | exact (IH _ H)].
Qed.

(** X9. What either lookup returns is the [Mod] of a requirement of the
    manifest whose path is the binary's: never a requirement of another
    module, never a value that is not in the manifest. *)
Theorem lookup_returns_a_matching_requirement gomod bin m :
  (versionFromGoMod gomod bin = Some m ->
   exists r, In r (modfile.File.Require gomod) /\
             modfile.Require.Mod r = m /\ matches bin r) /\
  (Part001.requiresInstall_loop (modfile.File.Require gomod) bin None
     = Some m ->
   exists r, In r (modfile.File.Require gomod) /\
             modfile.Require.Mod r = m /\ matches bin r).
Proof.
  split.
  - apply versionFromGoMod_loop_sound.
  - intros H. destruct (requiresInstall_loop_sound _ _ _ H) as [Habs|Hr];
      [discriminate | exact Hr].
Qed.

Lemma lookup_returns_a_matching_requirement_witness :
  (exists r, In r (modfile.File.Require manifest_twice_file) /\
             modfile.Require.Mod r
               = module.Version.mk "example.com/tool" "v1.2.0" /\
             matches (debug.BuildInfo.Main tool) r) /\
  (exists r, In r (modfile.File.Require manifest_twice_file) /\
             modfile.Require.Mod r
               = module.Version.mk "example.com/tool" "v1.3.0" /\
             matches (debug.BuildInfo.Main tool) r).
Proof.
  split.
  - apply (proj1 (@lookup_returns_a_matching_requirement manifest_twice_file
                    (debug.BuildInfo.Main tool)
                    (module.Version.mk "example.com/tool" "v1.2.0"))).
    reflexivity.
  - apply (proj2 (@lookup_returns_a_matching_requirement manifest_twice_file
                    (debug.BuildInfo.Main tool)
                    (module.Version.mk "example.com/tool" "v1.3.0"))).
    reflexivity.
Defined.

(** X10. The inline loop of part_001 finds what [versionFromGoMod] finds on
    the requirements in reverse order: the last match of a list is the first
    match of its reversal. *)
Theorem last_match_is_first_of_reversed reqs bin :
  Part001.requiresInstall_loop reqs bin None
  = versionFromGoMod_loop (rev reqs) bin.
Proof.
  assert (Hgen : forall modv,
    Part001.requiresInstall_loop reqs bin modv =
    match versionFromGoMod_loop (rev reqs) bin with
    | Some m => Some m
    | None => modv
    end).
  { induction reqs as [|r reqs IH]; intros modv; simpl; [reflexivity|].
    rewrite versionFromGoMod_loop_app. simpl.
    destruct (_ =? _); simpl; rewrite IH;
      destruct (versionFromGoMod_loop (rev reqs) bin); reflexivity. }
  rewrite Hgen. destruct (versionFromGoMod_loop (rev reqs) bin); reflexivity.
Qed.

(* ================================================================= *)
(** ** The revisions against each other *)

(** X11. main.go and part_001 return the same verdict whenever the manifest
    has a requirement for the binary's module path and all such requirements
    carry one version, as they do when module paths are unique: the first
    match and the last then decide alike. *)
Theorem first_and_last_agree E binPath b gomod info r :
  os_ReadFile E "go.mod" = inl b ->
  modfile_Parse E b = inl gomod ->
  buildinfo_ReadFile E binPath = inl info ->
  In r (modfile.File.Require gomod) ->
  matches (debug.BuildInfo.Main info) r ->
  (forall r', In r' (modfile.File.Require gomod) ->
     matches (debug.BuildInfo.Main info) r' ->
     module.Version.Version (modfile.Require.Mod r')
       = module.Version.Version (modfile.Require.Mod r)) ->
  let verdict :=
    Returns (negb (debug.Module_.Version (debug.BuildInfo.Main info)
                     =? module.Version.Version (modfile.Require.Mod r)),
             @None error) in
  Main.requiresInstall E binPath = verdict /\
  Part001.requiresInstall E binPath = verdict.
Proof.
  intros Hread Hparse Hbin Hin Hr Hone verdict.
  set (bin := debug.BuildInfo.Main info) in *.
  unfold Main.requiresInstall, Main.moduleFromBinary, Part001.requiresInstall.
  rewrite Hread, Hparse, Hbin. fold bin. split.
  - destruct (versionFromGoMod gomod bin) as [m|] eqn:Hfound.
    + destruct (versionFromGoMod_loop_sound _ _ Hfound)
        as (r' & Hin' & <- & Hr').
      rewrite (Hone r' Hin' Hr'). reflexivity.
    + apply versionFromGoMod_loop_none in Hfound.
      rewrite Forall_forall in Hfound. destruct (Hfound r Hin Hr).
  - destruct (Part001.requiresInstall_loop _ bin None) as [m|] eqn:Hfound.
    + destruct (requiresInstall_loop_sound _ _ _ Hfound)
        as [Habs | (r' & Hin' & <- & Hr')]; [discriminate|].
      rewrite (Hone r' Hin' Hr'). reflexivity.
    + apply requiresInstall_loop_none in Hfound.
      rewrite Forall_forall in Hfound. destruct (Hfound r Hin Hr).
Qed.

Lemma first_and_last_agree_witness :
  Main.requiresInstall installed "bin/tool" = Returns (false, None) /\
  Part001.requiresInstall installed "bin/tool" = Returns (false, None).
Proof.
  apply (@first_and_last_agree installed "bin/tool" manifest manifest_file
           tool (require "example.com/tool" "v1.2.0"));
    try reflexivity.
  - simpl. left. reflexivity.
  - simpl. intros r' [<-|[]] _. reflexivity.
Defined.

(** X12. The toolchain check only takes verdicts of up to date away:
    whenever part_000 answers [(false, nil)], so does main.go. *)
Theorem up_to_date_also_before E binPath :
  Part000.requiresInstall E binPath = Returns (false, None) ->
  Main.requiresInstall E binPath = Returns (false, None).
Proof.
  unfold Part000.requiresInstall, Main.requiresInstall, Main.moduleFromBinary.
  split_reads E binPath; try discriminate.
  destruct (Part000.needsUpdateForGo E gomod info) as [[[|] [err|]]|];
    simpl; try discriminate.
  destruct (versionFromGoMod gomod (debug.BuildInfo.Main info));
    [auto | discriminate].
Qed.

Lemma up_to_date_also_before_witness :
  Main.requiresInstall installed "bin/tool" = Returns (false, None).
Proof.
  apply (@up_to_date_also_before installed "bin/tool"). reflexivity.
Defined.

(** X13. part_000 and main.go return the same result unless the binary's
    build information was read and then either the toolchain check did not
    pass or no requirement has the binary's module path. *)
Theorem revisions_differ_only_there E binPath :
  Part000.requiresInstall E binPath = Main.requiresInstall E binPath \/
  exists b gomod info,
    os_ReadFile E "go.mod" = inl b /\ modfile_Parse E b = inl gomod /\
    buildinfo_ReadFile E binPath = inl info /\
    (Part000.needsUpdateForGo E gomod info <> Returns (false, None) \/
     versionFromGoMod gomod (debug.BuildInfo.Main info) = None).
Proof.
  unfold Part000.requiresInstall, Main.requiresInstall, Main.moduleFromBinary.
  split_reads E binPath; try (left; reflexivity).
  destruct (Part000.needsUpdateForGo E gomod info) as [[[|] [err|]]|] eqn:Hgo;
    simpl;
    try (right; exists b, gomod, info;
         do 3 (split; [solve [auto]|]); left; rewrite ?Hgo; discriminate).
  destruct (versionFromGoMod gomod (debug.BuildInfo.Main info)) eqn:Hfound.
  - left. reflexivity.
  - right. exists b, gomod, info.
    do 3 (split; [solve [auto]|]). right. auto.
Qed.

(** X14. The result depends on nothing but go.mod, the file at the binary's
    path and the two packages: two environments that agree on those give
    the same result in every revision, whatever else they hold. *)
Theorem only_two_files_are_read E1 E2 binPath :
  os_ReadFile E1 "go.mod" = os_ReadFile E2 "go.mod" ->
  (forall b, modfile_Parse E1 b = modfile_Parse E2 b) ->
  buildinfo_ReadFile E1 binPath = buildinfo_ReadFile E2 binPath ->
  (forall v, semver_IsValid E1 v = semver_IsValid E2 v) ->
  (forall v w, semver_Compare E1 v w = semver_Compare E2 v w) ->
  Part000.requiresInstall E1 binPath = Part000.requiresInstall E2 binPath /\
  Main.requiresInstall E1 binPath = Main.requiresInstall E2 binPath /\
  Part001.requiresInstall E1 binPath = Part001.requiresInstall E2 binPath.
Proof.
  intros Hread Hparse Hbin Hvalid Hcmp.
  unfold Part000.requiresInstall, Main.requiresInstall,
    Main.moduleFromBinary, Part001.requiresInstall.
  rewrite Hread. destruct (os_ReadFile E2 "go.mod") as [b|e]; auto.
  rewrite Hparse. destruct (modfile_Parse E2 b) as [gomod|e]; auto.
  rewrite Hbin. destruct (buildinfo_ReadFile E2 binPath) as [info|err]; auto.
  repeat split.
  unfold Part000.needsUpdateForGo.
  destruct (modfile.File.Go gomod) as [go|]; simpl; [|reflexivity].
  rewrite !Hvalid, Hcmp. reflexivity.
Qed.

Lemma only_two_files_are_read_witness :
  Part000.requiresInstall installed "bin/tool"
    = Part000.requiresInstall installed_beside_notes "bin/tool" /\
  Main.requiresInstall installed "bin/tool"
    = Main.requiresInstall installed_beside_notes "bin/tool" /\
  Part001.requiresInstall installed "bin/tool"
    = Part001.requiresInstall installed_beside_notes "bin/tool".
Proof.
  apply (@only_two_files_are_read installed installed_beside_notes
           "bin/tool"); reflexivity.
Defined.

(* ================================================================= *)
(** ** The older revisions on a path that is unknown or required twice *)

Lemma unknown_path_is_error_before_witness :
  Main.requiresInstall renamed "bin/tool" =
    Returns (false, Some (Errorf
      "module (example.com/renamed-tool) not found in modfile")) /\
  Part001.requiresInstall renamed "bin/tool" =
    Returns (false, Some (Errorf
      "module (example.com/renamed-tool) not found in modfile.")).
Proof.
  apply (@unknown_path_is_error_before renamed "bin/tool" manifest
           manifest_file
           (built "go1.22" "example.com/renamed-tool" "v1.2.0"));
    try reflexivity.
  repeat constructor. unfold matches. simpl. discriminate.
Defined.

Lemma last_requirement_wins_part001_witness :
  Part001.requiresInstall installed_twice "bin/tool" =
    Returns (negb ("v1.2.0" =? "v1.3.0"), None).
Proof.
  apply (@last_requirement_wins_part001 installed_twice "bin/tool"
           manifest_twice manifest_twice_file tool
           [require "example.com/tool" "v1.2.0"]
           (require "example.com/tool" "v1.3.0") []);
    try reflexivity.
  constructor.
Defined.

(* ================================================================= *)
(** ** The go prefix of the binary's toolchain string *)

(** X15. For the toolchain check a binary reporting [s] and one reporting
    go[s] are the same, provided [s] does not itself begin with go: both
    strings are normalized to v[s], the form of the manifest's [s]. *)
Theorem go_prefix_is_immaterial E gomod info1 info2 s :
  HasPrefix s "go" = false ->
  debug.BuildInfo.GoVersion info1 = s ->
  debug.BuildInfo.GoVersion info2 = "go" ++ s ->
  binGoVersion (debug.BuildInfo.GoVersion info1) = modGoVersion s /\
  binGoVersion (debug.BuildInfo.GoVersion info2) = modGoVersion s /\
  Part000.needsUpdateForGo E gomod info1
    = Part000.needsUpdateForGo E gomod info2.
Proof.
  intros Hbare H1 H2.
  assert (Hv1 : binGoVersion (debug.BuildInfo.GoVersion info1)
                = modGoVersion s).
  { rewrite H1. unfold binGoVersion, TrimPrefix. rewrite Hbare. reflexivity. }
  assert (Hv2 : binGoVersion (debug.BuildInfo.GoVersion info2)
                = modGoVersion s).
  { rewrite H2. unfold binGoVersion. rewrite (TrimPrefix_app "go" s).
    reflexivity. }
  repeat split; auto.
  unfold Part000.needsUpdateForGo. rewrite Hv1, Hv2. reflexivity.
Qed.

Lemma go_prefix_is_immaterial_witness :
  binGoVersion "1.22" = "v1.22" /\
  binGoVersion "go1.22" = "v1.22" /\
  Part000.needsUpdateForGo installed manifest_file
    (built "1.22" "example.com/tool" "v1.2.0")
  = Part000.needsUpdateForGo installed manifest_file tool.
Proof.
  apply (@go_prefix_is_immaterial installed manifest_file
           (built "1.22" "example.com/tool" "v1.2.0") tool "1.22");
    reflexivity.
Defined.
